(** * Route-access middleware and database-client module of the Auth.js v5
      OAuth tutorial application

    A shallow embedding of [src/middleware.ts] (the route-access gate and
    the first pattern of its matcher), of [src/lib/db.ts] (the module that
    exports the MongoDB client) and of the set-up of auth.ts, followed by the
    properties the specification states about them and by further properties
    read off the code.

    Strings are Rocq strings: the pathname of a parsed URL is ASCII (the URL
    serializer percent-encodes everything else), so a sequence of 8-bit
    characters represents it exactly.  [process.env] is a finite map from
    names to strings.  The MongoDB driver is not part of the repository:
    what its constructor rejects is a parameter of the model. *)

From Stdlib Require Import Ascii.
From stdpp Require Import base strings list gmap.

Local Open Scope string_scope.

(** ** JavaScript primitives used by the sources *)

Module Js.

(** [s.startsWith(search)] with the default position 0: [search] is compared
    with the first characters of [s], one character at a time. *)
Fixpoint startsWith (s search : string) {struct search} : bool :=
  match search with
  | EmptyString => true
  | String c search' =>
      match s with
      | EmptyString => false
      | String d s' => if Ascii.eqb d c then startsWith s' search' else false
      end
  end.

(** [arr.some(p)]: true as soon as one element satisfies [p], scanning from
    the left; false on the empty array. *)
Fixpoint some {A : Type} (p : A -> bool) (arr : list A) : bool :=
  match arr with
  | [] => false
  | x :: rest => if p x then true else some p rest
  end.

(** [!s] on a string is true exactly on the empty string. *)
Definition string_falsy (s : string) : bool :=
  match s with
  | EmptyString => true
  | String _ _ => false
  end.

End Js.

(** ** src/middleware.ts *)

Module Middleware.

(** The session object the session resolver attaches to the request. *)
Record Session := mkSession {
  userId : string;
  expires : string
}.

(** What [req.auth] can hold: a session object, [null] when the resolver
    found no session, or [undefined] when the property is absent. *)
Inductive ReqAuth :=
| AuthUndefined
| AuthNull
| AuthSession (s : Session).

(** A parsed URL, as far as the middleware looks at it. *)
Record URL := mkURL {
  origin : string;
  pathname : string;
  search : string
}.

(** The request: [req.auth], [req.nextUrl] and [req.url] (the latter is
    always a valid absolute URL, kept here in parsed form). *)
Record NextRequest := mkRequest {
  auth : ReqAuth;
  nextUrl : URL;
  url : URL
}.

(** [NextResponse.redirect(u)]. *)
Inductive NextResponse :=
| redirect (target : URL).

(** [!!v] on the content of [req.auth]: objects are truthy, [null] and
    [undefined] are falsy. *)
Definition toBoolean (v : ReqAuth) : bool :=
  match v with
  | AuthUndefined => false
  | AuthNull => false
  | AuthSession _ => true
  end.

(** [new URL(path, base)] for a [path] that is an absolute-path reference
    without query or fragment (such as "/dashboard" and "/login"): the
    origin of [base], the given path, no query. *)
Definition newURL (path : string) (base : URL) : URL :=
  {| origin := origin base; pathname := path; search := EmptyString |}.

(** [const privateRoutes = ["/dashboard", "/deneme"]]. *)
Definition privateRoutes : list string := ["/dashboard"; "/deneme"].

(** The callback given to [auth(...)], lines 8 to 22.  [None] is the
    callback returning nothing ([undefined]): the request proceeds. *)
Definition middleware (req : NextRequest) : option NextResponse :=
  let isLoggedIn := toBoolean (auth req) in
  let nextUrl := nextUrl req in
  let isLoginRoute := Js.startsWith (pathname nextUrl) "/login" in
  if isLoggedIn && isLoginRoute then
    Some (redirect (newURL "/dashboard" (url req)))
  else if negb isLoggedIn &&
          Js.some (fun route => Js.startsWith (pathname nextUrl) route) privateRoutes then
    Some (redirect (newURL "/login" (url req)))
  else
    None.

(** *** The gate with its three constants as configuration

    The specification speaks of a configured login path, a configured list of
    private-route prefixes and an application home.  [gate] is [middleware]
    with the literals "/login", "/dashboard" and the array [privateRoutes]
    replaced by the fields of a configuration; [middleware_gate] below shows
    that the code is the gate at [codeConfig]. *)

Record GateConfig := mkConfig {
  loginPath : string;
  appHome : string;
  privatePrefixes : list string
}.

Definition codeConfig : GateConfig :=
  {| loginPath := "/login";
     appHome := "/dashboard";
     privatePrefixes := privateRoutes |}.

Definition gate (cfg : GateConfig) (req : NextRequest) : option NextResponse :=
  let isLoggedIn := toBoolean (auth req) in
  let nextUrl := nextUrl req in
  let isLoginRoute := Js.startsWith (pathname nextUrl) (loginPath cfg) in
  if isLoggedIn && isLoginRoute then
    Some (redirect (newURL (appHome cfg) (url req)))
  else if negb isLoggedIn &&
          Js.some (fun route => Js.startsWith (pathname nextUrl) route)
                  (privatePrefixes cfg) then
    Some (redirect (newURL (loginPath cfg) (url req)))
  else
    None.

(** *** The specification's vocabulary *)

(** The authentication verdict of a request. *)
Inductive AuthVerdict :=
| Authenticated (uid : string)
| Unauthenticated.

Definition verdict (v : ReqAuth) : AuthVerdict :=
  match v with
  | AuthSession s => Authenticated (userId s)
  | AuthNull => Unauthenticated
  | AuthUndefined => Unauthenticated
  end.

Definition isAuthenticated (v : AuthVerdict) : bool :=
  match v with
  | Authenticated _ => true
  | Unauthenticated => false
  end.

(** The decision the response layer reads off the callback's result. *)
Inductive GateDecision :=
| Allow
| RedirectTo (path : string).

Definition decision (r : option NextResponse) : GateDecision :=
  match r with
  | None => Allow
  | Some (redirect u) => RedirectTo (pathname u)
  end.

(** A path is private when it starts with one of the prefixes. *)
Definition isPrivate (prefixes : list string) (path : string) : bool :=
  Js.some (fun route => Js.startsWith path route) prefixes.

(** The two rules of the policy, as propositions about a request. *)
Definition onLoginWhileAuthenticated (cfg : GateConfig) (req : NextRequest) : Prop :=
  isAuthenticated (verdict (auth req)) = true /\
  Js.startsWith (pathname (nextUrl req)) (loginPath cfg) = true.

Definition onPrivateWhileUnauthenticated (cfg : GateConfig) (req : NextRequest) : Prop :=
  isAuthenticated (verdict (auth req)) = false /\
  exists route, route ∈ privatePrefixes cfg /\
                Js.startsWith (pathname (nextUrl req)) route = true.

(** A request for [path] carrying [a] in [req.auth], arriving at [org]. *)
Definition request (org : string) (a : ReqAuth) (path : string) : NextRequest :=
  {| auth := a;
     nextUrl := {| origin := org; pathname := path; search := EmptyString |};
     url := {| origin := org; pathname := path; search := EmptyString |} |}.

(** The session of user 42, whatever its expiry date. *)
Definition session42 (exp : string) : ReqAuth :=
  AuthSession {| userId := "42"; expires := exp |}.

End Middleware.

(** ** src/lib/db.ts *)

Module Db.

(** The [options] object of line 9. *)
Record ServerApi := mkServerApi {
  version : string;
  strict : bool;
  deprecationErrors : bool
}.

Record MongoOptions := mkOptions {
  serverApi : ServerApi;
  dbName : string
}.

Definition options : MongoOptions :=
  {| serverApi := {| version := "1"; strict := true; deprecationErrors := true |};
     dbName := "MyDatabaseName" |}.

(** A client object.  Objects are compared by reference: [handle] is the
    identity the object got when it was constructed. *)
Record MongoClient := mkClient {
  handle : nat;
  clientUri : string;
  clientOptions : MongoOptions
}.

(** The part of the process the module reads and writes: [process.env], the
    property [_mongoClient] of the global object ([None] when it is unset),
    and every client constructed so far, oldest first. *)
Record Process := mkProcess {
  env : gmap string string;
  globalMongoClient : option MongoClient;
  constructed : list MongoClient
}.

(** An error object of the driver: the name of its class and its message. *)
Record MongoError := mkMongoError {
  errorName : string;
  errorMessage : string
}.

(** What an evaluation of the module body can throw: the [Error] of line 5,
    or an error of the driver, thrown by [new MongoClient] at line 28 or 33. *)
Inductive Thrown :=
| GuardError (message : string)
| DriverError (e : MongoError).

(** How one evaluation of the module body ends.  The module has no handler:
    a throw ends the evaluation, and nothing is exported. *)
Inductive Completion :=
| Threw (e : Thrown)
| Exported (client : MongoClient).

(** [process.env.NODE_ENV === "development"]. *)
Definition isDevelopment (p : Process) : bool :=
  match env p !! "NODE_ENV" with
  | None => false
  | Some m => String.eqb m "development"
  end.

(** The message of the error of line 5; the variable's name is quoted in it. *)
Definition missingUriMessage : string :=
  "Invalid/Missing environment variable: "
  +:+ String "034"%char "MONGODB_URI" +:+ String "034"%char EmptyString.

Section Driver.

(** The check that the constructor of the driver makes of its arguments.
    The driver is not part of this repository: [rejects uri opts] is the
    error that [new MongoClient(uri, opts)] throws (a MongoParseError on a
    string that is no connection string), or [None] when the constructor
    accepts its arguments. *)
Variable rejects : string -> MongoOptions -> option MongoError.

(** [new MongoClient(uri, options)]: the driver's error, or a fresh object,
    recorded as constructed. *)
Definition newMongoClient (uri : string) (opts : MongoOptions) (p : Process)
  : MongoError + MongoClient * Process :=
  match rejects uri opts with
  | Some e => inl e
  | None =>
      let c := {| handle := length (constructed p); clientUri := uri; clientOptions := opts |} in
      inr (c, {| env := env p;
                 globalMongoClient := globalMongoClient p;
                 constructed := constructed p ++ [c] |})
  end.

(** One evaluation of the module body, lines 4 to 38.  The guard of line 4,
    [!process.env.MONGODB_URI], is true when the variable is unset (its
    value is [undefined]) and when it is the empty string.  When the
    constructor throws, the assignment around it does not happen. *)
Definition evaluate (p : Process) : Completion * Process :=
  match env p !! "MONGODB_URI" with
  | None => (Threw (GuardError missingUriMessage), p)
  | Some uri =>
      if Js.string_falsy uri then (Threw (GuardError missingUriMessage), p)
      else if isDevelopment p then
        match globalMongoClient p with
        | None =>
            match newMongoClient uri options p with
            | inl e => (Threw (DriverError e), p)
            | inr (c, p1) =>
                (Exported c,
                 {| env := env p1; globalMongoClient := Some c;
                    constructed := constructed p1 |})
            end
        | Some c => (Exported c, p)
        end
      else
        match newMongoClient uri options p with
        | inl e => (Threw (DriverError e), p)
        | inr (c, p1) => (Exported c, p1)
        end
  end.

(** [n] evaluations of the module body one after the other, in one process
    (the first load and the reloads that follow it).  An evaluation that
    throws does not stop the process model: the next one finds the process
    as the failed one left it. *)
Fixpoint evaluations (n : nat) (p : Process) : list Completion * Process :=
  match n with
  | O => ([], p)
  | S n' =>
      let '(r, p1) := evaluate p in
      let '(rs, p2) := evaluations n' p1 in
      (r :: rs, p2)
  end.

End Driver.

(** A stand-in for the driver, to run the module on concrete inputs: it
    makes the first of the driver's checks only, and rejects a string that
    starts with neither of the two schemes of a connection string. *)
Definition schemeCheck (uri : string) (opts : MongoOptions) : option MongoError :=
  if Js.startsWith uri "mongodb://" || Js.startsWith uri "mongodb+srv://" then None
  else Some {| errorName := "MongoParseError";
               errorMessage := "Invalid scheme, expected connection string to start with "
                 +:+ String "034"%char "mongodb://" +:+ String "034"%char " or "
                 +:+ String "034"%char "mongodb+srv://" +:+ String "034"%char EmptyString |}.

(** A process that has just started: nothing constructed, the global unset. *)
Definition fresh (e : gmap string string) : Process :=
  {| env := e; globalMongoClient := None; constructed := [] |}.

End Db.

(** ** The rest of src/middleware.ts and the Auth.js set-up *)

Module Navigation.

Import Middleware.

(** The request a browser sends when it follows a redirect to [target]: the
    same cookies, hence the same [req.auth], for the target URL. *)
Definition follow (req : NextRequest) (target : URL) : NextRequest :=
  {| auth := auth req; nextUrl := target; url := target |}.

(** The characters of a plain path segment: digits, letters, hyphen and
    underscore. *)
Definition plainChar (c : ascii) : bool :=
  let n := nat_of_ascii c in
  Nat.leb 48 n && Nat.leb n 57 || Nat.leb 65 n && Nat.leb n 90 ||
  Nat.leb 97 n && Nat.leb n 122 || Nat.eqb n 45 || Nat.eqb n 95.

(** [plainSegments true s]: [s] is a non-empty segment of plain characters,
    followed by any number of segments of the same kind, each behind one
    slash; the flag says that a segment has just begun. *)
Fixpoint plainSegments (atStart : bool) (s : string) : bool :=
  match s with
  | EmptyString => negb atStart
  | String c s' =>
      if Ascii.eqb c "/"%char then negb atStart && plainSegments true s'
      else plainChar c && plainSegments false s'
  end.

(** The paths that [new URL(path, base)] takes over as they are, on a base
    with the scheme http or https: one slash and a plain segment, one or
    more times (such as /login and /dashboard).  They hold no dot segment to
    resolve, no second slash or backslash that would start a host, no query
    or fragment, and no character that the URL parser escapes or drops. *)
Definition plainPath (path : string) : bool :=
  match path with
  | String c rest => Ascii.eqb c "/"%char && plainSegments true rest
  | EmptyString => false
  end.

End Navigation.

Module Matcher.

(** [.] in a regular expression without the [s] flag: any character but a
    line terminator (line feed, carriage return). *)
Definition dot (c : ascii) : bool :=
  negb (Ascii.eqb c "010"%char || Ascii.eqb c "013"%char).

(** [.*] followed by the end of the input: every remaining character is
    matched by [.]. *)
Fixpoint dotStar (s : string) : bool :=
  match s with
  | EmptyString => true
  | String c s' => dot c && dotStar s'
  end.

(** [favicon.ico] at the start of [s]; the dot of the pattern is not
    escaped, so it stands for any one character. *)
Definition faviconIco (s : string) : bool :=
  match s with
  | String "f" (String "a" (String "v" (String "i" (String "c" (String "o" (String "n"
      (String c (String "i" (String "c" (String "o" _)))))))))) => dot c
  | _ => false
  end.

(** The alternatives of the negative look-ahead
    [(?!api|_next/static|_next/image|favicon.ico)] at the start of [s]. *)
Definition excluded (s : string) : bool :=
  Js.startsWith s "api" || Js.startsWith s "_next/static" ||
  Js.startsWith s "_next/image" || faviconIco s.

(** The first entry of [config.matcher], line 27: a slash and a group made
    of the negative look-ahead above and of [.*].  The framework reads the
    parenthesised part as a regular expression and matches the entry
    against the whole pathname: a slash, then a rest at whose start none of
    the alternatives matches and which [.*] consumes to the end.  A request
    reaches the callback as soon as one entry of [config.matcher] matches;
    the two other entries are not modelled. *)
Definition catchAll (path : string) : bool :=
  match path with
  | String c rest => Ascii.eqb c "/"%char && negb (excluded rest) && dotStar rest
  | EmptyString => false
  end.

End Matcher.

Module Auth.

(** The providers imported by auth.ts. *)
Inductive Provider :=
| GitHub
| Google.

(** The values the configuration objects hold. *)
Inductive ConfigValue :=
| Providers (ps : list Provider)
| Adapter (client : Db.MongoClient)
| SessionOptions (strategy : string)
| Other (v : string).

(** [authConfig] of src/auth.config.ts: [{ providers: [] }]. *)
Definition authConfig : gmap string ConfigValue :=
  {[ "providers" := Providers [] ]}.

(** The object literal of auth.ts, lines 9 to 14: the properties of [base]
    are copied first ([...authConfig]), then [adapter], [session] and
    [providers] are set, replacing what the copy brought under these names. *)
Definition authOptions (base : gmap string ConfigValue) (client : Db.MongoClient)
  : gmap string ConfigValue :=
  <["providers" := Providers [GitHub; Google]]>
    (<["session" := SessionOptions "jwt"]>
       (<["adapter" := Adapter client]> base)).

(** How the evaluation of auth.ts ends: with the error of a module it
    imports, or with the options it hands to [NextAuth]. *)
Inductive Completion :=
| Threw (e : Db.Thrown)
| Configured (opts : gmap string ConfigValue).

(** The evaluation of auth.ts in a process that has not evaluated
    src/lib/db.ts yet: the import of [@/lib/db] evaluates that module, and
    its error, if any, ends the evaluation of auth.ts. *)
Definition evaluate (rejects : string -> Db.MongoOptions -> option Db.MongoError)
    (base : gmap string ConfigValue) (p : Db.Process)
  : Completion * Db.Process :=
  match Db.evaluate rejects p with
  | (Db.Threw e, p1) => (Threw e, p1)
  | (Db.Exported client, p1) => (Configured (authOptions base client), p1)
  end.

End Auth.

Module Runtime.

Import Db.

(** [process.env[name] = value], done by the host between two evaluations. *)
Definition setEnv (name value : string) (p : Process) : Process :=
  {| env := <[name := value]> (env p);
     globalMongoClient := globalMongoClient p;
     constructed := constructed p |}.

End Runtime.

(** * Properties *)

Import Middleware.

(** ** Facts about the JavaScript primitives *)

Section JsFacts.

Lemma append_cons (c : ascii) (s t : string) :
  String c s +:+ t = String c (s +:+ t).
Proof. reflexivity. Qed.

Lemma append_empty_r (s : string) : s +:+ EmptyString = s.
Proof. induction s as [|c s IH]; [done |]. by rewrite append_cons, IH. Qed.

Lemma startsWith_prefix (s search : string) :
  Js.startsWith s search = true <-> exists rest, s = search +:+ rest.
Proof.
  revert s. induction search as [|c search IH]; intros s; simpl.
  - split; [intros _; by exists s | done].
  - destruct s as [|d s].
    + split; [done | intros [rest Hrest]; discriminate].
    + destruct (Ascii.eqb d c) eqn:E.
      * apply Ascii.eqb_eq in E as ->. rewrite IH. split.
        -- intros [rest ->]. by exists rest.
        -- intros [rest Hrest]. exists rest.
           rewrite append_cons in Hrest. by injection Hrest.
      * apply Ascii.eqb_neq in E. split; [done |].
        intros [rest Hrest]. rewrite append_cons in Hrest.
        injection Hrest as Hd _. by destruct E.
Qed.

Lemma startsWith_refl (s : string) : Js.startsWith s s = true.
Proof. apply startsWith_prefix. exists EmptyString. by rewrite append_empty_r. Qed.

Lemma some_true {A : Type} (p : A -> bool) (arr : list A) :
  Js.some p arr = true <-> exists x, x ∈ arr /\ p x = true.
Proof.
  induction arr as [|a arr IH]; simpl.
  - split; [done | intros (x & Hx & _); by apply elem_of_nil in Hx].
  - destruct (p a) eqn:E.
    + split; [intros _; exists a; split; [left | done] | done].
    + rewrite IH. split.
      * intros (x & Hx & Hp). exists x. split; [by right | done].
      * intros (x & Hx & Hp). apply elem_of_cons in Hx as [-> | Hx].
        -- congruence.
        -- by exists x.
Qed.

Lemma some_false {A : Type} (p : A -> bool) (arr : list A) :
  Js.some p arr = false <-> forall x, x ∈ arr -> p x = false.
Proof.
  split.
  - intros Hs x Hx. destruct (p x) eqn:E; [| done].
    assert (Js.some p arr = true) by (apply some_true; eauto). congruence.
  - intros Hall. destruct (Js.some p arr) eqn:E; [| done].
    apply some_true in E as (x & Hx & Hp). rewrite Hall in Hp; done.
Qed.

End JsFacts.

(** ** The gate *)

Section Gate.

(** The code is the gate at the constants of the source. *)
Lemma middleware_gate (req : NextRequest) : middleware req = gate codeConfig req.
Proof. reflexivity. Qed.

Lemma toBoolean_verdict (a : ReqAuth) : toBoolean a = isAuthenticated (verdict a).
Proof. by destruct a. Qed.

Lemma isPrivate_true (prefixes : list string) (path : string) :
  isPrivate prefixes path = true <->
  exists route, route ∈ prefixes /\ Js.startsWith path route = true.
Proof. apply some_true. Qed.

(** The decision as a function of the three facts the callback computes. *)
Lemma decision_gate (cfg : GateConfig) (req : NextRequest) :
  decision (gate cfg req) =
    if toBoolean (auth req) && Js.startsWith (pathname (nextUrl req)) (loginPath cfg)
    then RedirectTo (appHome cfg)
    else if negb (toBoolean (auth req)) &&
            isPrivate (privatePrefixes cfg) (pathname (nextUrl req))
         then RedirectTo (loginPath cfg)
         else Allow.
Proof.
  unfold gate, isPrivate; simpl.
  destruct (toBoolean (auth req)); simpl.
  - by destruct (Js.startsWith _ (loginPath cfg)).
  - by destruct (Js.some _ _).
Qed.

End Gate.

Section GatePolicy.

Implicit Types (cfg : GateConfig) (req : NextRequest).

Lemma not_on_login cfg req :
  ~ onLoginWhileAuthenticated cfg req ->
  toBoolean (auth req) && Js.startsWith (pathname (nextUrl req)) (loginPath cfg) = false.
Proof.
  unfold onLoginWhileAuthenticated. rewrite <- toBoolean_verdict. intros Hn.
  apply not_true_is_false. intros [??]%andb_true_iff. by apply Hn.
Qed.

Lemma not_on_private cfg req :
  ~ onPrivateWhileUnauthenticated cfg req ->
  negb (toBoolean (auth req)) &&
    isPrivate (privatePrefixes cfg) (pathname (nextUrl req)) = false.
Proof.
  unfold onPrivateWhileUnauthenticated. rewrite <- toBoolean_verdict. intros Hn.
  apply not_true_is_false. intros [Ha Hp]%andb_true_iff. apply Hn. split.
  - by apply negb_true_iff.
  - by apply isPrivate_true.
Qed.

Lemma on_private cfg req :
  onPrivateWhileUnauthenticated cfg req ->
  toBoolean (auth req) = false /\
  isPrivate (privatePrefixes cfg) (pathname (nextUrl req)) = true.
Proof.
  unfold onPrivateWhileUnauthenticated. rewrite <- toBoolean_verdict.
  intros [Ha Hp]. split; [done | by apply isPrivate_true].
Qed.

(** C1.  The gate applies its rules in a fixed order and the first that
    matches decides: an authenticated request whose path starts with the
    login path is redirected to the application home; otherwise an
    unauthenticated request whose path starts with one of the private
    prefixes is redirected to the login path; otherwise the request is
    allowed. *)
Theorem gate_precedence cfg req :
  (onLoginWhileAuthenticated cfg req ->
     decision (gate cfg req) = RedirectTo (appHome cfg)) /\
  (~ onLoginWhileAuthenticated cfg req ->
   onPrivateWhileUnauthenticated cfg req ->
     decision (gate cfg req) = RedirectTo (loginPath cfg)) /\
  (~ onLoginWhileAuthenticated cfg req ->
   ~ onPrivateWhileUnauthenticated cfg req ->
     decision (gate cfg req) = Allow).
Proof.
  rewrite decision_gate. repeat split.
  - intros [Ha Hl]. rewrite <- toBoolean_verdict in Ha. by rewrite Ha, Hl.
  - intros H1 [Ha Hp]%on_private. by rewrite Ha, Hp.
  - intros H1%not_on_login H2%not_on_private. by rewrite H1, H2.
Qed.

(** C2, as amended.  With an empty list of private prefixes every request
    is allowed, except an authenticated one whose path starts with the
    login path: that one is redirected to the application home. *)
Theorem empty_private_routes cfg req :
  privatePrefixes cfg = [] ->
  (~ onLoginWhileAuthenticated cfg req -> decision (gate cfg req) = Allow) /\
  (onLoginWhileAuthenticated cfg req ->
     decision (gate cfg req) = RedirectTo (appHome cfg)).
Proof.
  intros Hempty. rewrite decision_gate, Hempty. split.
  - intros H1%not_on_login. rewrite H1. simpl. by rewrite andb_false_r.
  - intros [Ha Hl]. rewrite <- toBoolean_verdict in Ha. by rewrite Ha, Hl.
Qed.

(** C3, as amended.  A request whose path starts with none of the private
    prefixes is allowed, whatever the verdict, unless it is authenticated
    and its path starts with the login path. *)
Theorem public_path_allowed cfg req :
  (forall route, route ∈ privatePrefixes cfg ->
                 Js.startsWith (pathname (nextUrl req)) route = false) ->
  ~ onLoginWhileAuthenticated cfg req ->
  decision (gate cfg req) = Allow.
Proof.
  intros Hpublic H1%not_on_login. rewrite decision_gate, H1.
  unfold isPrivate. rewrite (proj2 (some_false _ _)); [| done].
  by rewrite andb_false_r.
Qed.

(** An authenticated request for the login path itself is redirected to
    the application home. *)
Lemma login_path_authenticated cfg req :
  isAuthenticated (verdict (auth req)) = true ->
  pathname (nextUrl req) = loginPath cfg ->
  decision (gate cfg req) = RedirectTo (appHome cfg).
Proof.
  intros Ha Hp. rewrite decision_gate, toBoolean_verdict, Ha, Hp.
  by rewrite startsWith_refl.
Qed.

(** When the login path and the application home differ, a request with
    a session is never sent to the login path and a request without one is
    never sent to the application home. *)
Lemma redirect_directions cfg req :
  loginPath cfg <> appHome cfg ->
  (toBoolean (auth req) = true -> decision (gate cfg req) <> RedirectTo (loginPath cfg)) /\
  (toBoolean (auth req) = false -> decision (gate cfg req) <> RedirectTo (appHome cfg)).
Proof.
  intros Hne. rewrite decision_gate. split; intros ->; simpl.
  - destruct (Js.startsWith _ _); [congruence | done].
  - destruct (isPrivate _ _); [congruence | done].
Qed.

End GatePolicy.

Section GateScenarios.

Implicit Types (cfg : GateConfig) (req : NextRequest) (org exp : string).

(** C4.  An unauthenticated request whose path starts with one of the
    private prefixes is redirected to the login path; in particular the
    code redirects an unauthenticated request for /dashboard to /login. *)
Theorem private_path_unauthenticated :
  (forall cfg req,
     (exists route, route ∈ privatePrefixes cfg /\
                    Js.startsWith (pathname (nextUrl req)) route = true) ->
     verdict (auth req) = Unauthenticated ->
     decision (gate cfg req) = RedirectTo (loginPath cfg)) /\
  (forall org a,
     verdict a = Unauthenticated ->
     decision (middleware (request org a "/dashboard")) = RedirectTo "/login").
Proof.
  split.
  - intros cfg req Hp%isPrivate_true Hv. rewrite decision_gate, Hp.
    rewrite toBoolean_verdict, Hv. reflexivity.
  - intros org a Hv. rewrite middleware_gate, decision_gate. simpl.
    rewrite toBoolean_verdict, Hv. reflexivity.
Qed.

(** C5.  The code is the gate with login path /login, private prefixes
    /dashboard and /deneme and application home /dashboard, and it decides
    the four scenarios as the specification lists them. *)
Theorem scenarios org exp :
  (forall req, middleware req =
               gate (mkConfig "/login" "/dashboard" ["/dashboard"; "/deneme"]) req) /\
  decision (middleware (request org (session42 exp) "/dashboard")) = Allow /\
  decision (middleware (request org (session42 exp) "/login")) = RedirectTo "/dashboard" /\
  decision (middleware (request org AuthNull "/login")) = Allow /\
  decision (middleware (request org AuthNull "/")) = Allow.
Proof. repeat split. Qed.

(** C6.  The decision is a function of the verdict, the path and the
    configuration and of nothing else: two requests with the same verdict
    and the same path get the same decision, whatever else they carry
    (origin, query, identity of the user); and whether an unauthenticated
    request is let through is a function of the private prefixes and the
    path alone. *)
Theorem gate_deterministic :
  (forall cfg req1 req2,
     isAuthenticated (verdict (auth req1)) = isAuthenticated (verdict (auth req2)) ->
     pathname (nextUrl req1) = pathname (nextUrl req2) ->
     decision (gate cfg req1) = decision (gate cfg req2)) /\
  (forall cfg1 cfg2 req1 req2,
     verdict (auth req1) = Unauthenticated ->
     verdict (auth req2) = Unauthenticated ->
     privatePrefixes cfg1 = privatePrefixes cfg2 ->
     pathname (nextUrl req1) = pathname (nextUrl req2) ->
     (decision (gate cfg1 req1) = Allow <-> decision (gate cfg2 req2) = Allow) /\
     (decision (gate cfg1 req1) = Allow <->
      isPrivate (privatePrefixes cfg1) (pathname (nextUrl req1)) = false)).
Proof.
  split.
  - intros cfg req1 req2 Hv Hp. rewrite !decision_gate, !toBoolean_verdict.
    by rewrite Hv, Hp.
  - intros cfg1 cfg2 req1 req2 Hv1 Hv2 Hr Hp.
    rewrite !decision_gate, !toBoolean_verdict, Hv1, Hv2, <- Hr, <- Hp. simpl.
    destruct (isPrivate _ _); split; split; done.
Qed.

(** C7.  The gate returns a decision on every request: it allows it, or
    redirects it to the application home or to the login path.  A request
    whose [auth] is not a session ([null] or [undefined]) is decided as an
    unauthenticated one: by the private-prefix rule alone. *)
Theorem gate_total cfg req :
  (decision (gate cfg req) = Allow \/
   decision (gate cfg req) = RedirectTo (appHome cfg) \/
   decision (gate cfg req) = RedirectTo (loginPath cfg)) /\
  (forall a n u,
     toBoolean a = false ->
     verdict a = Unauthenticated /\
     gate cfg (mkRequest a n u) = gate cfg (mkRequest AuthNull n u) /\
     decision (gate cfg (mkRequest a n u)) =
       if isPrivate (privatePrefixes cfg) (pathname n)
       then RedirectTo (loginPath cfg) else Allow) /\
  (forall n u,
     gate cfg (mkRequest AuthUndefined n u) = gate cfg (mkRequest AuthNull n u)).
Proof.
  split; [| split].
  - rewrite decision_gate.
    destruct (toBoolean (auth req)); simpl.
    + destruct (Js.startsWith _ _); auto.
    + destruct (isPrivate _ _); auto.
  - intros a n u Hfalsy. repeat split.
    + by destruct a.
    + by destruct a.
    + rewrite decision_gate. simpl. by rewrite Hfalsy.
  - reflexivity.
Qed.

(** C10.  The code never redirects in the wrong direction: a request with
    a session is never sent to /login, a request without one is never sent
    to /dashboard; the same holds of the gate at every configuration whose
    login path and application home differ. *)
Theorem no_wrong_direction :
  (forall req,
     (isAuthenticated (verdict (auth req)) = true ->
        decision (middleware req) <> RedirectTo "/login") /\
     (isAuthenticated (verdict (auth req)) = false ->
        decision (middleware req) <> RedirectTo "/dashboard")) /\
  (forall cfg req,
     loginPath cfg <> appHome cfg ->
     (isAuthenticated (verdict (auth req)) = true ->
        decision (gate cfg req) <> RedirectTo (loginPath cfg)) /\
     (isAuthenticated (verdict (auth req)) = false ->
        decision (gate cfg req) <> RedirectTo (appHome cfg))).
Proof.
  split.
  - intros req. rewrite middleware_gate, <- toBoolean_verdict.
    by apply (redirect_directions codeConfig req).
  - intros cfg req Hne. rewrite <- toBoolean_verdict.
    by apply redirect_directions.
Qed.

End GateScenarios.

(** ** The database-client module *)

Import Db.

Section DbModule.

Variable rejects : string -> MongoOptions -> option MongoError.

Implicit Types (p : Process) (uri : string) (c : MongoClient) (n : nat).

Lemma string_falsy_false uri : uri <> EmptyString -> Js.string_falsy uri = false.
Proof. by destruct uri. Qed.

(** Once the global holds a client, an evaluation in development mode
    exports it and leaves the process as it was. *)
Lemma evaluate_cached p uri c :
  env p !! "MONGODB_URI" = Some uri -> uri <> EmptyString ->
  isDevelopment p = true ->
  globalMongoClient p = Some c ->
  evaluate rejects p = (Exported c, p).
Proof.
  intros Huri Hne%string_falsy_false Hdev Hglobal.
  unfold evaluate. by rewrite Huri, Hne, Hdev, Hglobal.
Qed.

Lemma evaluations_cached p uri c n :
  env p !! "MONGODB_URI" = Some uri -> uri <> EmptyString ->
  isDevelopment p = true ->
  globalMongoClient p = Some c ->
  evaluations rejects n p = (replicate n (Exported c), p).
Proof.
  intros Huri Hne Hdev Hglobal. induction n as [|n IH]; [done |].
  simpl. by rewrite (evaluate_cached p uri c), IH.
Qed.

(** Outside development mode every evaluation constructs the next client,
    when the driver accepts the connection string. *)
Lemma evaluate_uncached p uri :
  env p !! "MONGODB_URI" = Some uri -> uri <> EmptyString ->
  rejects uri options = None ->
  isDevelopment p = false ->
  evaluate rejects p =
    (Exported (mkClient (length (constructed p)) uri options),
     mkProcess (env p) (globalMongoClient p)
               (constructed p ++ [mkClient (length (constructed p)) uri options])).
Proof.
  intros Huri Hne%string_falsy_false Hok Hdev.
  unfold evaluate, newMongoClient. by rewrite Huri, Hne, Hdev, Hok.
Qed.

Lemma evaluations_uncached n : forall p uri,
  env p !! "MONGODB_URI" = Some uri -> uri <> EmptyString ->
  rejects uri options = None ->
  isDevelopment p = false ->
  evaluations rejects n p =
    ((fun h => Exported (mkClient h uri options)) <$> seq (length (constructed p)) n,
     mkProcess (env p) (globalMongoClient p)
               (constructed p ++
                ((fun h => mkClient h uri options) <$> seq (length (constructed p)) n))).
Proof.
  induction n as [|n IH]; intros p uri Huri Hne Hok Hdev.
  - simpl. rewrite app_nil_r. by destruct p.
  - simpl. rewrite (evaluate_uncached p uri) by done.
    rewrite (IH _ uri); [| done | done | done | done]. simpl.
    rewrite length_app, Nat.add_1_r. simpl. by rewrite <- app_assoc.
Qed.

(** Where the constructor is called and throws, the evaluation ends with
    the driver's error and the process is left as it was. *)
Lemma evaluate_rejected p uri (e : MongoError) :
  env p !! "MONGODB_URI" = Some uri -> uri <> EmptyString ->
  rejects uri options = Some e ->
  isDevelopment p = false \/ globalMongoClient p = None ->
  evaluate rejects p = (Threw (DriverError e), p).
Proof.
  intros Huri Hne%string_falsy_false Hbad Hcalled.
  unfold evaluate, newMongoClient. rewrite Huri, Hne, Hbad.
  destruct (isDevelopment p); [| done].
  by destruct Hcalled as [? | ->].
Qed.

Lemma evaluations_rejected p uri (e : MongoError) n :
  env p !! "MONGODB_URI" = Some uri -> uri <> EmptyString ->
  rejects uri options = Some e ->
  isDevelopment p = false \/ globalMongoClient p = None ->
  evaluations rejects n p = (replicate n (Threw (DriverError e)), p).
Proof.
  intros Huri Hne Hbad Hcalled. induction n as [|n IH]; [done |].
  simpl. by rewrite (evaluate_rejected p uri e), IH.
Qed.

End DbModule.

Section DbClaims.

Variable rejects : string -> MongoOptions -> option MongoError.

Implicit Types (p : Process) (uri : string) (c : MongoClient) (n : nat).

(** C8, as amended.  When MONGODB_URI is unset the evaluation of the
    module ends with the throw of line 5 and leaves the process as it found
    it: no client is constructed and the global is not touched.  It ends in
    the same way when the variable is set to the empty string.  When the
    variable is set to a non-empty string that error is not raised: the
    evaluation exports a client, or ends with the error of the driver's
    constructor on that string. *)
Theorem missing_uri_is_fatal p :
  (env p !! "MONGODB_URI" = None ->
     evaluate rejects p = (Threw (GuardError missingUriMessage), p)) /\
  (env p !! "MONGODB_URI" = Some EmptyString ->
     evaluate rejects p = (Threw (GuardError missingUriMessage), p)) /\
  (forall uri, env p !! "MONGODB_URI" = Some uri -> uri <> EmptyString ->
     (forall m, (evaluate rejects p).1 <> Threw (GuardError m)) /\
     ((exists c p', evaluate rejects p = (Exported c, p')) \/
      (exists e, rejects uri options = Some e /\
                 evaluate rejects p = (Threw (DriverError e), p)))).
Proof.
  unfold evaluate, newMongoClient. split; [| split].
  - by intros ->.
  - by intros ->.
  - intros uri -> ->%string_falsy_false.
    destruct (isDevelopment p); [destruct (globalMongoClient p) |];
      destruct (rejects uri options) as [e|]; simpl; split; try done; eauto.
Qed.

(** X13.  What the evaluations of the module body do with a non-empty
    MONGODB_URI.  In development mode the client is memoized in the global
    variable [_mongoClient]: if the global is unset and the driver accepts
    the connection string, the first evaluation constructs one client and
    stores it there, and every evaluation, the first and the reloads after
    it, exports that client; if the global already holds a client, every
    evaluation exports it and constructs nothing.  In any other mode
    nothing is memoized: every evaluation of the body constructs a new
    client, with a handle of its own, and exports it.  Where the constructor
    is called and the driver rejects the connection string, every
    evaluation ends with the driver's error, nothing is constructed and the
    global stays as it was. *)
Theorem client_memoized_in_development p uri n :
  env p !! "MONGODB_URI" = Some uri -> uri <> EmptyString ->
  (isDevelopment p = true -> globalMongoClient p = None ->
   rejects uri options = None ->
     evaluations rejects (S n) p =
       (replicate (S n) (Exported (mkClient (length (constructed p)) uri options)),
        mkProcess (env p)
                  (Some (mkClient (length (constructed p)) uri options))
                  (constructed p ++ [mkClient (length (constructed p)) uri options]))) /\
  (isDevelopment p = true ->
   forall c, globalMongoClient p = Some c ->
     evaluations rejects n p = (replicate n (Exported c), p)) /\
  (isDevelopment p = false ->
   rejects uri options = None ->
     evaluations rejects n p =
       ((fun h => Exported (mkClient h uri options)) <$> seq (length (constructed p)) n,
        mkProcess (env p) (globalMongoClient p)
                  (constructed p ++
                   ((fun h => mkClient h uri options) <$> seq (length (constructed p)) n)))) /\
  (forall e, rejects uri options = Some e ->
   isDevelopment p = false \/ globalMongoClient p = None ->
     evaluations rejects n p = (replicate n (Threw (DriverError e)), p)).
Proof.
  intros Huri Hne. split; [| split; [| split]].
  - intros Hdev Hglobal Hok.
    change (evaluations rejects (S n) p) with
      (let '(r, p1) := evaluate rejects p in
       let '(rs, p2) := evaluations rejects n p1 in (r :: rs, p2)).
    unfold evaluate, newMongoClient.
    rewrite Huri, (string_falsy_false uri Hne), Hdev, Hglobal, Hok. simpl.
    by rewrite (evaluations_cached rejects _ uri (mkClient (length (constructed p)) uri options)).
  - intros Hdev c Hglobal. by apply (evaluations_cached rejects p uri).
  - intros Hdev Hok. by apply evaluations_uncached.
  - intros e Hbad Hcalled. by apply (evaluations_rejected rejects p uri).
Qed.

End DbClaims.

(** ** The claims at concrete inputs *)

Section Instances.

Lemma not_private_route (path : string) :
  Js.startsWith path "/dashboard" = false ->
  Js.startsWith path "/deneme" = false ->
  forall route, route ∈ privatePrefixes codeConfig -> Js.startsWith path route = false.
Proof.
  intros Hd Hn route Hin. simpl in Hin. unfold privateRoutes in Hin.
  apply elem_of_cons in Hin as [-> | Hin]; [done |].
  apply elem_of_cons in Hin as [-> | Hin]; [done |].
  by apply elem_of_nil in Hin.
Qed.

Lemma gate_precedence_witness :
  decision (gate codeConfig
              (request "https://example.com" (session42 "2030-01-01") "/login"))
    = RedirectTo "/dashboard" /\
  decision (gate codeConfig (request "https://example.com" AuthNull "/deneme/1"))
    = RedirectTo "/login" /\
  decision (gate codeConfig (request "https://example.com" AuthNull "/about"))
    = Allow.
Proof.
  split; [| split].
  - destruct (gate_precedence codeConfig
                (request "https://example.com" (session42 "2030-01-01") "/login"))
      as (H1 & _ & _).
    apply H1. split; reflexivity.
  - destruct (gate_precedence codeConfig
                (request "https://example.com" AuthNull "/deneme/1"))
      as (_ & H2 & _).
    apply H2.
    + intros [Ha _]. discriminate Ha.
    + split; [reflexivity |]. exists "/deneme". split; [| reflexivity].
      apply list_elem_of_further, list_elem_of_here.
  - destruct (gate_precedence codeConfig
                (request "https://example.com" AuthNull "/about"))
      as (_ & _ & H3).
    apply H3.
    + intros [Ha _]. discriminate Ha.
    + intros [_ (route & Hin & Hs)].
      rewrite (not_private_route "/about") in Hs; [discriminate | reflexivity .. | exact Hin].
Defined.

(** C2, as the specification states it, fails: with no private prefix at
    all, an authenticated request for the login path is still redirected. *)
Lemma empty_private_routes_counterexample :
  privatePrefixes (mkConfig "/login" "/dashboard" []) = [] /\
  verdict (session42 "2030-01-01") = Authenticated "42" /\
  decision (gate (mkConfig "/login" "/dashboard" [])
              (request "https://example.com" (session42 "2030-01-01") "/login"))
    = RedirectTo "/dashboard" /\
  decision (gate (mkConfig "/login" "/dashboard" [])
              (request "https://example.com" (session42 "2030-01-01") "/login"))
    <> Allow.
Proof. repeat split. discriminate. Qed.

Lemma empty_private_routes_witness :
  privatePrefixes (mkConfig "/login" "/dashboard" []) = [] /\
  decision (gate (mkConfig "/login" "/dashboard" [])
              (request "https://example.com" AuthNull "/dashboard"))
    = Allow.
Proof.
  split; [reflexivity |].
  destruct (empty_private_routes (mkConfig "/login" "/dashboard" [])
              (request "https://example.com" AuthNull "/dashboard") eq_refl)
    as [Hallow _].
  apply Hallow. intros [Ha _]. discriminate Ha.
Defined.

(** C3, as the specification states it, fails: /login/error starts with
    no private prefix and is not the login path, yet an authenticated
    request for it is redirected. *)
Lemma public_path_counterexample :
  (forall route, route ∈ privatePrefixes codeConfig ->
                 Js.startsWith "/login/error" route = false) /\
  "/login/error" <> loginPath codeConfig /\
  decision (middleware
              (request "https://example.com" (session42 "2030-01-01") "/login/error"))
    = RedirectTo "/dashboard" /\
  decision (middleware
              (request "https://example.com" (session42 "2030-01-01") "/login/error"))
    <> Allow.
Proof.
  split; [by apply not_private_route |]. repeat split; discriminate.
Qed.

Lemma public_path_allowed_witness :
  decision (gate codeConfig
              (request "https://example.com" (session42 "2030-01-01") "/about"))
    = Allow.
Proof.
  apply (public_path_allowed codeConfig
           (request "https://example.com" (session42 "2030-01-01") "/about")).
  - apply not_private_route; reflexivity.
  - intros [_ Hl]. discriminate Hl.
Defined.

End Instances.

Section MoreInstances.

Lemma private_path_unauthenticated_witness :
  decision (gate codeConfig (request "https://example.com" AuthUndefined "/deneme/1"))
    = RedirectTo "/login" /\
  decision (middleware (request "https://example.com" AuthNull "/dashboard"))
    = RedirectTo "/login".
Proof.
  destruct private_path_unauthenticated as [Hgate Hcode]. split.
  - apply (Hgate codeConfig (request "https://example.com" AuthUndefined "/deneme/1")).
    + exists "/deneme". split; [| reflexivity].
      apply list_elem_of_further, list_elem_of_here.
    + reflexivity.
  - apply Hcode. reflexivity.
Defined.

Lemma gate_deterministic_witness :
  decision (gate codeConfig
              (request "https://example.com" (session42 "2030-01-01") "/login"))
  = decision (gate codeConfig
                (mkRequest (AuthSession (mkSession "7" "2031-06-30"))
                           (mkURL "http://localhost:3000" "/login" "?from=mail")
                           (mkURL "http://localhost:3000" "/login" "?from=mail"))).
Proof.
  destruct gate_deterministic as [Hsame _].
  apply Hsame; reflexivity.
Defined.

Lemma gate_total_witness :
  gate codeConfig (request "https://example.com" AuthUndefined "/dashboard")
  = gate codeConfig (request "https://example.com" AuthNull "/dashboard") /\
  decision (gate codeConfig (request "https://example.com" AuthUndefined "/dashboard"))
  = RedirectTo "/login".
Proof.
  destruct (gate_total codeConfig (request "https://example.com" AuthNull "/"))
    as (_ & Hfalsy & _).
  destruct (Hfalsy AuthUndefined
              (mkURL "https://example.com" "/dashboard" EmptyString)
              (mkURL "https://example.com" "/dashboard" EmptyString) eq_refl)
    as (_ & Hnull & Hdecision).
  split; [exact Hnull | exact Hdecision].
Defined.

Lemma no_wrong_direction_witness :
  decision (middleware
              (request "https://example.com" (session42 "2030-01-01") "/login"))
    <> RedirectTo "/login" /\
  decision (middleware (request "https://example.com" AuthNull "/dashboard"))
    <> RedirectTo "/dashboard".
Proof.
  destruct no_wrong_direction as [Hcode _]. split.
  - apply (Hcode (request "https://example.com" (session42 "2030-01-01") "/login")).
    reflexivity.
  - apply (Hcode (request "https://example.com" AuthNull "/dashboard")).
    reflexivity.
Defined.

(** C8, as the specification states it, fails: a MONGODB_URI that is set,
    to the empty string, stops the evaluation with the same error. *)
Lemma empty_uri_counterexample :
  env (fresh {[ "MONGODB_URI" := EmptyString ]}) !! "MONGODB_URI" = Some EmptyString /\
  evaluate schemeCheck (fresh {[ "MONGODB_URI" := EmptyString ]})
    = (Threw (GuardError missingUriMessage), fresh {[ "MONGODB_URI" := EmptyString ]}).
Proof. split; reflexivity. Qed.

Lemma missing_uri_is_fatal_witness :
  evaluate schemeCheck (fresh ∅) = (Threw (GuardError missingUriMessage), fresh ∅) /\
  (evaluate schemeCheck (fresh {[ "MONGODB_URI" := "mongodb://localhost:27017" ]})).1
    <> Threw (GuardError missingUriMessage) /\
  (evaluate schemeCheck (fresh {[ "MONGODB_URI" := "not-a-uri" ]})).1
    <> Threw (GuardError missingUriMessage).
Proof.
  split; [| split].
  - destruct (missing_uri_is_fatal schemeCheck (fresh ∅)) as (Hunset & _ & _).
    apply Hunset. reflexivity.
  - destruct (missing_uri_is_fatal schemeCheck
                (fresh {[ "MONGODB_URI" := "mongodb://localhost:27017" ]}))
      as (_ & _ & Hset).
    destruct (Hset "mongodb://localhost:27017") as [Hnot _];
      [reflexivity | discriminate |].
    apply Hnot.
  - destruct (missing_uri_is_fatal schemeCheck
                (fresh {[ "MONGODB_URI" := "not-a-uri" ]}))
      as (_ & _ & Hset).
    destruct (Hset "not-a-uri") as [Hnot _]; [reflexivity | discriminate |].
    apply Hnot.
Defined.

Lemma client_memoized_in_development_witness :
  evaluations schemeCheck 3
    (fresh {[ "MONGODB_URI" := "mongodb://localhost:27017"; "NODE_ENV" := "development" ]})
  = (replicate 3 (Exported (mkClient 0 "mongodb://localhost:27017" options)),
     mkProcess
       {[ "MONGODB_URI" := "mongodb://localhost:27017"; "NODE_ENV" := "development" ]}
       (Some (mkClient 0 "mongodb://localhost:27017" options))
       [mkClient 0 "mongodb://localhost:27017" options]).
Proof.
  destruct (client_memoized_in_development schemeCheck
              (fresh {[ "MONGODB_URI" := "mongodb://localhost:27017";
                        "NODE_ENV" := "development" ]})
              "mongodb://localhost:27017" 2)
    as (Hfirst & _ & _); [reflexivity | discriminate |].
  apply Hfirst; reflexivity.
Defined.

End MoreInstances.

(** ** Further properties of the gate *)

Section GateStructure.

Implicit Types (cfg : GateConfig) (req : NextRequest) (path route : string).

Lemma startsWith_trans (s t r : string) :
  Js.startsWith s t = true -> Js.startsWith t r = true -> Js.startsWith s r = true.
Proof.
  intros [rest1 ->]%startsWith_prefix [rest2 ->]%startsWith_prefix.
  apply startsWith_prefix. exists (rest2 +:+ rest1).
  clear. induction r as [|c r IH]; [done |]. by rewrite !append_cons, IH.
Qed.

Lemma isPrivate_subset (l l' : list string) path :
  (forall route, route ∈ l -> route ∈ l') ->
  isPrivate l path = true -> isPrivate l' path = true.
Proof.
  intros Hsub (route & Hin & Hs)%isPrivate_true.
  apply isPrivate_true. exists route. auto.
Qed.

(** The gate reads the list of prefixes only through [isPrivate]. *)
Lemma gate_prefixes cfg (l : list string) req :
  isPrivate l (pathname (nextUrl req))
    = isPrivate (privatePrefixes cfg) (pathname (nextUrl req)) ->
  gate (mkConfig (loginPath cfg) (appHome cfg) l) req = gate cfg req.
Proof. unfold gate, isPrivate; simpl. by intros ->. Qed.

(** X1.  An unauthenticated request is redirected to the login path exactly
    when its path is a private prefix followed by anything: every path below
    a private prefix is protected, and so is every path that merely begins
    with the same characters.  Every other unauthenticated request is
    allowed. *)
Theorem unauthenticated_redirected_iff cfg req :
  toBoolean (auth req) = false ->
  (decision (gate cfg req) = RedirectTo (loginPath cfg) <->
   exists route rest, route ∈ privatePrefixes cfg /\
                      pathname (nextUrl req) = route +:+ rest) /\
  (decision (gate cfg req) = RedirectTo (loginPath cfg) \/
   decision (gate cfg req) = Allow).
Proof.
  intros Ha. rewrite decision_gate, Ha. simpl.
  destruct (isPrivate _ _) eqn:Hp; (split; [split |]); auto.
  - intros _. apply isPrivate_true in Hp as (route & Hin & Hs).
    apply startsWith_prefix in Hs as [rest Hrest]. eauto.
  - discriminate.
  - intros (route & rest & Hin & Hpath).
    assert (isPrivate (privatePrefixes cfg) (pathname (nextUrl req)) = true) as Hyes.
    { apply isPrivate_true. exists route. split; [done |].
      apply startsWith_prefix. eauto. }
    congruence.
Qed.

(** X2.  The list of private prefixes has no effect on an authenticated
    request: the gate decides it as it would with any other list, and
    allows it whenever its path does not start with the login path. *)
Theorem authenticated_ignores_private_routes cfg (l : list string) req :
  toBoolean (auth req) = true ->
  gate (mkConfig (loginPath cfg) (appHome cfg) l) req = gate cfg req /\
  (Js.startsWith (pathname (nextUrl req)) (loginPath cfg) = false ->
   gate cfg req = None).
Proof.
  intros Ha. unfold gate; simpl. rewrite Ha. simpl. split; [done |].
  by intros ->.
Qed.

(** X9.  A request with a session is redirected to the application home
    exactly when its path is the login path followed by anything, the login
    path itself included; every other request with a session is allowed. *)
Theorem authenticated_redirected_iff cfg req :
  toBoolean (auth req) = true ->
  (gate cfg req = Some (redirect (newURL (appHome cfg) (url req))) <->
   exists rest, pathname (nextUrl req) = loginPath cfg +:+ rest) /\
  (gate cfg req = Some (redirect (newURL (appHome cfg) (url req))) \/
   gate cfg req = None).
Proof.
  intros Ha. unfold gate. rewrite Ha. cbn [andb negb].
  destruct (Js.startsWith (pathname (nextUrl req)) (loginPath cfg)) eqn:Hl;
    (split; [split |]); auto.
  - intros _. by apply startsWith_prefix.
  - discriminate.
  - intros Hrest%startsWith_prefix. congruence.
Qed.

(** X3.  The code never redirects to another site, and never to a place
    the request chose: the target of a redirect has the origin of the
    request, no query, and its path is /dashboard (for a request with a
    session) or /login (for a request without one). *)
Theorem no_open_redirect req (u : URL) :
  middleware req = Some (redirect u) ->
  origin u = origin (url req) /\
  search u = EmptyString /\
  (pathname u = "/dashboard" /\ toBoolean (auth req) = true \/
   pathname u = "/login" /\ toBoolean (auth req) = false).
Proof.
  rewrite middleware_gate. unfold gate.
  destruct (toBoolean (auth req)); cbn [andb negb].
  - destruct (Js.startsWith (pathname (nextUrl req)) (loginPath codeConfig)); [| done].
    intros [= <-]. auto.
  - destruct (Js.some _ (privatePrefixes codeConfig)); [| done].
    intros [= <-]. auto.
Qed.

(** X6.  The list of private prefixes counts as a set.  Adding prefixes
    never lets through a request that was redirected; and two lists with
    the same elements, in any order and with any repetitions, give the same
    gate. *)
Theorem private_routes_as_set cfg (l : list string) req :
  ((forall route, route ∈ privatePrefixes cfg -> route ∈ l) ->
   gate cfg req <> None ->
   gate (mkConfig (loginPath cfg) (appHome cfg) l) req = gate cfg req) /\
  ((forall route, route ∈ privatePrefixes cfg <-> route ∈ l) ->
   gate (mkConfig (loginPath cfg) (appHome cfg) l) req = gate cfg req).
Proof.
  split.
  - intros Hsub Hredirected. destruct (toBoolean (auth req)) eqn:Ha.
    + unfold gate. by rewrite Ha.
    + apply gate_prefixes.
      destruct (isPrivate (privatePrefixes cfg) _) eqn:Hp.
      * by apply (isPrivate_subset (privatePrefixes cfg)).
      * exfalso. apply Hredirected. unfold gate. rewrite Ha. simpl.
        unfold isPrivate in Hp. by rewrite Hp.
  - intros Heq. apply gate_prefixes.
    destruct (isPrivate (privatePrefixes cfg) _) eqn:Hp.
    + apply (isPrivate_subset (privatePrefixes cfg)); [| done]. intros ?. apply Heq.
    + destruct (isPrivate l _) eqn:Hl; [| done].
      apply (isPrivate_subset l (privatePrefixes cfg)) in Hl; [congruence |].
      intros ?. apply Heq.
Qed.

End GateStructure.

(** ** Following the gate's redirects *)

Import Navigation.

Section Redirects.

Implicit Types (cfg : GateConfig) (req : NextRequest) (u : URL).

(** What the gate answers to the request that follows one of its redirects. *)
Lemma gate_follow cfg req u :
  gate cfg req = Some (redirect u) ->
  gate cfg (follow req u) =
    if toBoolean (auth req)
    then (if Js.startsWith (appHome cfg) (loginPath cfg) then Some (redirect u) else None)
    else (if isPrivate (privatePrefixes cfg) (loginPath cfg) then Some (redirect u) else None).
Proof.
  unfold gate, follow, isPrivate. simpl.
  destruct (toBoolean (auth req)); cbn [andb negb].
  - destruct (Js.startsWith (pathname (nextUrl req)) (loginPath cfg)); [| done].
    intros [= <-]. simpl. by destruct (Js.startsWith (appHome cfg) (loginPath cfg)).
  - destruct (Js.some _ (privatePrefixes cfg)); [| done].
    intros [= <-]. simpl. by destruct (Js.some _ (privatePrefixes cfg)).
Qed.

(** X4.  The code never redirects twice: the request that follows one of
    its redirects, with the same session or the same absence of one, is
    let through. *)
Theorem redirect_settles req u :
  middleware req = Some (redirect u) ->
  middleware (follow req u) = None.
Proof.
  intros Hredirect. change (gate codeConfig (follow req u) = None).
  change (gate codeConfig req = Some (redirect u)) in Hredirect.
  rewrite (gate_follow codeConfig req u Hredirect).
  by destruct (toBoolean (auth req)).
Qed.

(** X5.  For the gate at a configuration whose login path and application
    home are plain paths, which the redirect target takes over as they are:
    the request that follows a redirect is either let through or redirected
    to the very same URL, and then for ever.  It is let through exactly
    when, for a request with a session, the application home does not start
    with the login path, and, for a request without one, the login path is
    not itself private. *)
Theorem redirect_settles_or_loops cfg req u :
  plainPath (loginPath cfg) = true ->
  plainPath (appHome cfg) = true ->
  gate cfg req = Some (redirect u) ->
  (gate cfg (follow req u) = None \/
   gate cfg (follow req u) = Some (redirect u) /\ follow (follow req u) u = follow req u) /\
  (gate cfg (follow req u) = None <->
   if toBoolean (auth req)
   then Js.startsWith (appHome cfg) (loginPath cfg) = false
   else isPrivate (privatePrefixes cfg) (loginPath cfg) = false).
Proof.
  intros _ _ Hredirect. rewrite (gate_follow cfg req u Hredirect).
  destruct (toBoolean (auth req)).
  - destruct (Js.startsWith (appHome cfg) (loginPath cfg)); split; auto; split; done.
  - destruct (isPrivate (privatePrefixes cfg) (loginPath cfg)); split; auto; split; done.
Qed.

(** X7.  A prefix that starts with a prefix already in the list is
    redundant: adding it changes no decision. *)
Theorem redundant_prefix cfg (route route' : string) req :
  route ∈ privatePrefixes cfg ->
  Js.startsWith route' route = true ->
  gate (mkConfig (loginPath cfg) (appHome cfg) (route' :: privatePrefixes cfg)) req
    = gate cfg req.
Proof.
  intros Hin Hstarts. apply gate_prefixes.
  unfold isPrivate at 1. simpl.
  destruct (Js.startsWith (pathname (nextUrl req)) route') eqn:Hp; [| done].
  symmetry. apply isPrivate_true. exists route. split; [done |].
  by apply (startsWith_trans _ route').
Qed.

End Redirects.

(** ** The matcher *)

Section MatcherFacts.

Import Matcher.

(** The paths on which the callback acts start with /login, /dashboard or
    /deneme. *)
Lemma middleware_acts (req : NextRequest) :
  middleware req <> None ->
  Js.startsWith (pathname (nextUrl req)) "/login" = true \/
  Js.startsWith (pathname (nextUrl req)) "/dashboard" = true \/
  Js.startsWith (pathname (nextUrl req)) "/deneme" = true.
Proof.
  unfold middleware, privateRoutes.
  destruct (toBoolean (auth req)); cbn [andb negb Js.some].
  - destruct (Js.startsWith (pathname (nextUrl req)) "/login"); auto.
  - destruct (Js.startsWith (pathname (nextUrl req)) "/dashboard"); [auto |].
    destruct (Js.startsWith (pathname (nextUrl req)) "/deneme"); auto.
Qed.

(** X8.  The first pattern of the matcher hides nothing from the gate: a
    request on which the callback would redirect, and whose path holds no
    line terminator, is matched by it; so a request that the pattern leaves
    out is one the callback would have let through. *)
Theorem matcher_covers_gate (req : NextRequest) :
  dotStar (pathname (nextUrl req)) = true ->
  (middleware req <> None -> catchAll (pathname (nextUrl req)) = true) /\
  (catchAll (pathname (nextUrl req)) = false -> middleware req = None).
Proof.
  intros Hdot.
  assert (middleware req <> None -> catchAll (pathname (nextUrl req)) = true) as Hcover.
  { intros Hacts. apply middleware_acts in Hacts.
    destruct (pathname (nextUrl req)) as [|c0 [|c1 rest]]; simpl in Hacts.
    - by destruct Hacts as [? | [? | ?]].
    - destruct (Ascii.eqb c0 "/"); by destruct Hacts as [? | [? | ?]].
    - change (dot c0 && dotStar (String c1 rest) = true) in Hdot.
      apply andb_true_iff in Hdot as [_ Hdot].
      unfold catchAll. rewrite Hdot, andb_true_r.
      destruct (Ascii.eqb c0 "/") eqn:E0; [| by destruct Hacts as [? | [? | ?]]].
      simpl. apply negb_true_iff.
      destruct Hacts as [H | [H | H]].
      + destruct (Ascii.eqb c1 "l") eqn:E1; [| done].
        apply Ascii.eqb_eq in E1 as ->. reflexivity.
      + destruct (Ascii.eqb c1 "d") eqn:E1; [| done].
        apply Ascii.eqb_eq in E1 as ->. reflexivity.
      + destruct (Ascii.eqb c1 "d") eqn:E1; [| done].
        apply Ascii.eqb_eq in E1 as ->. reflexivity. }
  split; [done |].
  intros Hout. destruct (middleware req) eqn:Hm; [| done].
  rewrite Hcover in Hout; done.
Qed.

End MatcherFacts.

(** ** Further properties of the database-client module *)

Section DbInvariants.

Import Runtime.

Variable rejects : string -> MongoOptions -> option MongoError.

Implicit Types (p : Process) (uri : string) (c : MongoClient) (n : nat).

(** What one evaluation keeps, however it ends. *)
Lemma evaluate_keeps p :
  env (evaluate rejects p).2 = env p /\
  constructed p `prefix_of` constructed (evaluate rejects p).2 /\
  length (constructed (evaluate rejects p).2) <= S (length (constructed p)) /\
  (forall c, globalMongoClient p = Some c ->
             globalMongoClient (evaluate rejects p).2 = Some c).
Proof.
  unfold evaluate, newMongoClient.
  destruct (env p !! "MONGODB_URI") as [uri|]; [| by repeat split; auto].
  destruct (Js.string_falsy uri); [by repeat split; auto |].
  destruct (isDevelopment p); [destruct (globalMongoClient p) as [c0|] eqn:Hg |];
    destruct (rejects uri options); simpl.
  - repeat split; auto. intros c <-. done.
  - repeat split; auto. intros c <-. done.
  - rewrite Hg. repeat split; auto.
  - repeat split; [by apply prefix_app_r | rewrite length_app; simpl; lia | done].
  - repeat split; auto.
  - repeat split; [by apply prefix_app_r | rewrite length_app; simpl; lia | done].
Qed.

Lemma evaluations_step n p :
  evaluations rejects (S n) p =
    ((evaluate rejects p).1 :: (evaluations rejects n (evaluate rejects p).2).1,
     (evaluations rejects n (evaluate rejects p).2).2).
Proof.
  simpl. destruct (evaluate rejects p) as [r p1]. simpl.
  by destruct (evaluations rejects n p1).
Qed.

(** X10.  Whatever the mode and however each evaluation ends, a sequence
    of evaluations never changes the environment, never removes or alters a
    client already constructed, constructs at most one client per
    evaluation, and never unsets or replaces a client that the global
    variable holds. *)
Theorem evaluations_keep n p :
  length (evaluations rejects n p).1 = n /\
  env (evaluations rejects n p).2 = env p /\
  constructed p `prefix_of` constructed (evaluations rejects n p).2 /\
  length (constructed (evaluations rejects n p).2) <= length (constructed p) + n /\
  (forall c, globalMongoClient p = Some c ->
             globalMongoClient (evaluations rejects n p).2 = Some c).
Proof.
  revert p. induction n as [|n IH]; intros p.
  - simpl. repeat split; [done | lia | done].
  - rewrite evaluations_step. simpl.
    destruct (evaluate_keeps p) as (Henv & Hpre & Hlen & Hglobal).
    destruct (IH (evaluate rejects p).2) as (IHn & IHenv & IHpre & IHlen & IHglobal).
    repeat split.
    + by rewrite IHn.
    + by rewrite IHenv.
    + by etrans.
    + lia.
    + intros c Hc. by apply IHglobal, Hglobal.
Qed.

Lemma isDevelopment_setEnv uri p :
  isDevelopment (setEnv "MONGODB_URI" uri p) = isDevelopment p.
Proof. unfold isDevelopment, setEnv. simpl. by rewrite lookup_insert_ne. Qed.

(** X11.  With the global unset and a connection string that the driver
    accepts, the first evaluation exports a client for it.  If MONGODB_URI
    is changed afterwards, then in development mode the change has no
    effect: the next evaluation exports the client made for the old string
    and constructs nothing, whatever the new string is.  In any other mode
    the next evaluation calls the constructor on the new string: it exports
    a new client for it, or ends with the driver's error on it. *)
Theorem uri_change_after_first_evaluation p uri uri' :
  env p !! "MONGODB_URI" = Some uri -> uri <> EmptyString -> uri' <> EmptyString ->
  globalMongoClient p = None ->
  rejects uri options = None ->
  exists c p1,
    evaluate rejects p = (Exported c, p1) /\ clientUri c = uri /\
    (isDevelopment p = true ->
       evaluate rejects (setEnv "MONGODB_URI" uri' p1)
         = (Exported c, setEnv "MONGODB_URI" uri' p1)) /\
    (isDevelopment p = false -> rejects uri' options = None ->
       exists c' p2,
         evaluate rejects (setEnv "MONGODB_URI" uri' p1) = (Exported c', p2) /\
         clientUri c' = uri' /\ handle c' <> handle c /\
         constructed p2 = (constructed p ++ [c; c'])%list) /\
    (isDevelopment p = false -> forall e, rejects uri' options = Some e ->
       evaluate rejects (setEnv "MONGODB_URI" uri' p1)
         = (Threw (DriverError e), setEnv "MONGODB_URI" uri' p1)).
Proof.
  intros Huri Hne%string_falsy_false Hne'%string_falsy_false Hglobal Hok.
  unfold evaluate at 1, newMongoClient. rewrite Huri, Hne, Hglobal, Hok.
  destruct (isDevelopment p) eqn:Hdev; simpl.
  - eexists _, _. split; [done |]. split; [done |]. split; [| done].
    intros _. unfold evaluate. rewrite isDevelopment_setEnv.
    unfold isDevelopment at 1. simpl. fold (isDevelopment p). rewrite Hdev.
    by rewrite lookup_insert_eq, Hne'.
  - eexists _, _. split; [done |]. split; [done |]. split; [done |].
    split.
    + intros _ Hok'. unfold evaluate, newMongoClient. rewrite isDevelopment_setEnv.
      unfold isDevelopment at 1. simpl. fold (isDevelopment p). rewrite Hdev.
      rewrite lookup_insert_eq, Hne', Hok'. simpl.
      eexists _, _. split; [done |]. split; [done |]. split.
      * simpl. rewrite length_app. simpl. lia.
      * by rewrite <- app_assoc.
    + intros _ e Hbad. unfold evaluate, newMongoClient. rewrite isDevelopment_setEnv.
      unfold isDevelopment at 1. simpl. fold (isDevelopment p). rewrite Hdev.
      by rewrite lookup_insert_eq, Hne', Hbad.
Qed.

End DbInvariants.

(** ** The Auth.js set-up of auth.ts *)

Section AuthSetup.

Variable rejects : string -> MongoOptions -> option MongoError.

Implicit Types (p : Process) (base : gmap string Auth.ConfigValue).

(** X12.  The evaluation of auth.ts ends with the error of src/lib/db.ts,
    and hands nothing to NextAuth, when MONGODB_URI is unset or empty, and
    when the constructor of the driver is called and rejects the connection
    string.  When the driver accepts the string, or the constructor is not
    called because the global already holds a client in development mode,
    it configures NextAuth with an adapter around the very client that
    src/lib/db.ts exports.  Whatever auth.config.ts holds under providers,
    session or adapter is replaced (so its empty list of providers is not
    used), and every other option of auth.config.ts is kept. *)
Theorem auth_setup base p :
  (env p !! "MONGODB_URI" = None \/ env p !! "MONGODB_URI" = Some EmptyString ->
     Auth.evaluate rejects base p = (Auth.Threw (GuardError missingUriMessage), p)) /\
  (forall uri, env p !! "MONGODB_URI" = Some uri -> uri <> EmptyString ->
     (forall e, rejects uri options = Some e ->
        isDevelopment p = false \/ globalMongoClient p = None ->
        Auth.evaluate rejects base p = (Auth.Threw (DriverError e), p)) /\
     (rejects uri options = None \/
      isDevelopment p = true /\ is_Some (globalMongoClient p) ->
        exists c p1,
          evaluate rejects p = (Exported c, p1) /\
          Auth.evaluate rejects base p
            = (Auth.Configured (Auth.authOptions base c), p1))) /\
  (forall c k,
     Auth.authOptions base c !! k =
       if decide (k = "providers") then Some (Auth.Providers [Auth.GitHub; Auth.Google])
       else if decide (k = "session") then Some (Auth.SessionOptions "jwt")
       else if decide (k = "adapter") then Some (Auth.Adapter c)
       else base !! k).
Proof.
  split; [| split].
  - unfold Auth.evaluate, evaluate. by intros [-> | ->].
  - intros uri Huri Hne%string_falsy_false.
    unfold Auth.evaluate, evaluate, newMongoClient. rewrite Huri, Hne. split.
    + intros e -> Hcalled.
      destruct (isDevelopment p); [| done]. by destruct Hcalled as [? | ->].
    + intros [-> | [-> [c ->]]]; [| by eauto].
      destruct (isDevelopment p); [destruct (globalMongoClient p) |]; simpl; eauto.
  - intros c k. unfold Auth.authOptions.
    repeat case_decide; subst; by simplify_map_eq.
Qed.

End AuthSetup.

(** ** The further properties at concrete inputs *)

Section FurtherInstances.

Import Matcher Runtime.

Lemma unauthenticated_redirected_iff_witness :
  decision (gate codeConfig
              (request "https://example.com" AuthNull "/dashboard/settings"))
    = RedirectTo "/login".
Proof.
  destruct (unauthenticated_redirected_iff codeConfig
              (request "https://example.com" AuthNull "/dashboard/settings") eq_refl)
    as [[_ Hredirect] _].
  apply Hredirect. exists "/dashboard", "/settings".
  split; [apply list_elem_of_here | reflexivity].
Defined.

Lemma authenticated_ignores_private_routes_witness :
  gate (mkConfig "/login" "/dashboard" ["/"])
       (request "https://example.com" (session42 "2030-01-01") "/deneme")
    = None.
Proof.
  destruct (authenticated_ignores_private_routes codeConfig ["/"]
              (request "https://example.com" (session42 "2030-01-01") "/deneme") eq_refl)
    as [Hsame Hallow].
  exact (eq_trans Hsame (Hallow eq_refl)).
Defined.

Lemma authenticated_redirected_iff_witness :
  gate codeConfig (request "https://example.com" (session42 "2030-01-01") "/login/error")
    = Some (redirect (mkURL "https://example.com" "/dashboard" EmptyString)).
Proof.
  destruct (authenticated_redirected_iff codeConfig
              (request "https://example.com" (session42 "2030-01-01") "/login/error")
              eq_refl)
    as [[_ Hredirect] _].
  apply Hredirect. by exists "/error".
Defined.

Lemma no_open_redirect_witness :
  origin (mkURL "https://example.com" "/login" EmptyString) = "https://example.com" /\
  search (mkURL "https://example.com" "/login" EmptyString) = EmptyString.
Proof.
  destruct (no_open_redirect
              (mkRequest AuthNull
                 (mkURL "https://example.com" "/dashboard" "?next=https://evil.example")
                 (mkURL "https://example.com" "/dashboard" "?next=https://evil.example"))
              (mkURL "https://example.com" "/login" EmptyString) eq_refl)
    as (Horigin & Hsearch & _).
  split; [exact Horigin | exact Hsearch].
Defined.

Lemma redirect_settles_witness :
  middleware (follow (request "https://example.com" AuthNull "/deneme/1")
                     (mkURL "https://example.com" "/login" EmptyString))
    = None.
Proof.
  apply (redirect_settles (request "https://example.com" AuthNull "/deneme/1")).
  reflexivity.
Defined.

Lemma redirect_settles_or_loops_witness :
  gate (mkConfig "/login" "/dashboard" ["/"])
       (follow (request "https://example.com" AuthNull "/about")
               (mkURL "https://example.com" "/login" EmptyString))
    = Some (redirect (mkURL "https://example.com" "/login" EmptyString)).
Proof.
  destruct (redirect_settles_or_loops (mkConfig "/login" "/dashboard" ["/"])
              (request "https://example.com" AuthNull "/about")
              (mkURL "https://example.com" "/login" EmptyString)
              eq_refl eq_refl eq_refl)
    as [[Hnone | [Hloop _]] Hiff].
  - apply Hiff in Hnone. discriminate Hnone.
  - exact Hloop.
Defined.

Lemma redundant_prefix_witness :
  gate (mkConfig "/login" "/dashboard" ["/dashboard/settings"; "/dashboard"; "/deneme"])
       (request "https://example.com" AuthNull "/dashboard/settings/profile")
    = gate codeConfig
        (request "https://example.com" AuthNull "/dashboard/settings/profile").
Proof.
  apply (redundant_prefix codeConfig "/dashboard" "/dashboard/settings").
  - apply list_elem_of_here.
  - reflexivity.
Defined.

Lemma matcher_covers_gate_witness :
  catchAll "/dashboard/settings" = true.
Proof.
  destruct (matcher_covers_gate
              (request "https://example.com" AuthNull "/dashboard/settings") eq_refl)
    as [Hcover _].
  apply Hcover. discriminate.
Defined.

Lemma uri_change_after_first_evaluation_witness :
  exists c p1,
    evaluate schemeCheck
      (fresh {[ "MONGODB_URI" := "mongodb://old:27017"; "NODE_ENV" := "development" ]})
      = (Exported c, p1) /\
    clientUri c = "mongodb://old:27017" /\
    evaluate schemeCheck (setEnv "MONGODB_URI" "mongodb://new:27017" p1)
      = (Exported c, setEnv "MONGODB_URI" "mongodb://new:27017" p1).
Proof.
  destruct (uri_change_after_first_evaluation schemeCheck
              (fresh {[ "MONGODB_URI" := "mongodb://old:27017"; "NODE_ENV" := "development" ]})
              "mongodb://old:27017" "mongodb://new:27017")
    as (c & p1 & Hfirst & Huri & Hdev & _);
    [reflexivity | discriminate | discriminate | reflexivity | reflexivity |].
  exists c, p1. split; [exact Hfirst |]. split; [exact Huri |].
  apply Hdev. reflexivity.
Defined.

End FurtherInstances.
